(** * ui-predicate-core: the invariants of the predicate tree

    A shallow embedding of
    [packages/ui-predicate-core/src/invariants.js] and the properties
    its specification states about it.

    The module is a function of two collaborators,
    [module.exports = ({ errors, rules }) => ({ ... })]: the error
    taxonomy and the structural rules.  Every invariant returns a
    settled promise, [Promise.resolve(v)] or [Promise.reject(new
    errors.K(msg))]; the embedding returns that settlement as a value. *)

From Stdlib Require Import ZArith String Ascii List Bool.
From stdpp Require Import gmap strings list.

Open Scope string_scope.
Set Warnings "-register-all".

(** ** JavaScript values *)

(** The identity of a JavaScript object: two objects are [===] when
    they are one object, whatever they hold. *)
Definition ref := positive.

(** The boolean combinator of a compound predicate. *)
Inductive Logic : Type := AND | OR.

(** Modelled from the spec: the tree-node classes (dataclasses.js) are
    not under src/.  Section 3 gives the two variants: a
    ComparisonPredicate is a leaf referencing a target and an operator,
    a CompoundPredicate holds a combinator and an ordered sequence of
    child predicates.  Each node is an object and so has an identity. *)
Inductive Predicate : Type :=
| Comparison (r : ref) (target_id operator_id : string)
| Compound (r : ref) (logic : Logic) (predicates : list Predicate).

(** The values an invariant can be handed.  Numbers are integers: no
    invariant computes with them.  An object carries its identity, its
    own properties in insertion order and its prototype ([VNull] where
    the chain ends); an array its elements; an Option (of the option
    library) its content, if any; a predicate node is an instance of one
    of the two dataclasses. *)
Inductive value : Type :=
| VUndefined
| VNull
| VBool (b : bool)
| VNumber (n : Z)
| VString (s : string)
| VArray (r : ref) (items : list value)
| VObject (r : ref) (props : list (string * value)) (proto : value)
| VOption (r : ref) (content : option value)
| VPredicate (p : Predicate).

(** An Option object: [isNone()] tells whether it is empty, [value()]
    gives its content. *)
Record Option_ : Type := mkOption { option_ref : ref; option_content : option value }.

Definition Option_to_value (o : Option_) : value :=
  VOption (option_ref o) (option_content o).

Definition isNone (o : Option_) : bool :=
  match option_content o with None => true | Some _ => false end.

(** [o.value()] is only called on a present Option; on an absent one
    the library has nothing to give. *)
Definition Option_value (o : Option_) : value :=
  match option_content o with Some v => v | None => VUndefined end.

(** A target, as [TargetMustReferToADefinedType] reads it: its two
    identifiers. *)
Record Target : Type := mkTarget { target_id : string; type_id : string }.

(** A variant-check capability, [CompoundPredicate] or
    [ComparisonPredicate]: the tree-node implementation's test "is this
    value a node of my variant", its method [is] ([is_] here, [is] being
    a keyword). *)
Record VariantCheck : Type := mkVariantCheck { is_ : value -> bool }.

Definition Predicate_ref (p : Predicate) : ref :=
  match p with
  | Comparison r _ _ => r
  | Compound r _ _ => r
  end.

(** The identity of a value that is an object, [None] for a primitive. *)
Definition ref_of (v : value) : option ref :=
  match v with
  | VArray r _ | VObject r _ _ | VOption r _ => Some r
  | VPredicate p => Some (Predicate_ref p)
  | _ => None
  end.

(** [a === b]: primitives by value, objects by identity. *)
Definition strict_equals (a b : value) : bool :=
  match ref_of a, ref_of b with
  | Some ra, Some rb => Pos.eqb ra rb
  | None, None =>
      match a, b with
      | VUndefined, VUndefined => true
      | VNull, VNull => true
      | VBool x, VBool y => Bool.eqb x y
      | VNumber x, VNumber y => Z.eqb x y
      | VString x, VString y => String.eqb x y
      | _, _ => false
      end
  | _, _ => false
  end.

(** [Array.isArray(v)]. *)
Definition Array_isArray (v : value) : bool :=
  match v with VArray _ _ => true | _ => false end.

(** [v.length] of an array. *)
Definition Array_length (v : value) : nat :=
  match v with VArray _ items => length items | _ => 0 end.

(** Ramda's [is(Object, v)]: [v] is an object and not a primitive. *)
Definition is_Object (v : value) : bool :=
  match ref_of v with Some _ => true | None => false end.

(** The own property [k] of an object, if it has one. *)
Fixpoint get_own (props : list (string * value)) (k : string) : option value :=
  match props with
  | [] => None
  | (k', v) :: rest => if String.eqb k' k then Some v else get_own rest k
  end.

(** [v.k] for an object [v]: its own property, or else the property of
    its prototype, along the chain; [undefined] when no object of the
    chain has it.  The elements of an array and the methods of an Option
    are not properties of this kind. *)
Fixpoint get (v : value) (k : string) : value :=
  match v with
  | VObject _ props proto =>
      match get_own props k with
      | Some x => x
      | None => get proto k
      end
  | _ => VUndefined
  end.

Definition ComparisonPredicate_tag : string := "ComparisonPredicate".
Definition CompoundPredicate_tag : string := "CompoundPredicate".

(** The [$_type] of a node.  The dataclasses are not under src/;
    invariants.js recognises a comparison node by the tag
    "ComparisonPredicate" (line 62), so that is the tag a comparison node
    carries.  The tag of a compound node is in no source: it is taken to
    be the name of its class, and all that the invariants can tell of it
    is that it is another string. *)
Definition Predicate_type (p : Predicate) : string :=
  match p with
  | Comparison _ _ _ => ComparisonPredicate_tag
  | Compound _ _ _ => CompoundPredicate_tag
  end.

(** [v.$_type] for a value that is an object. *)
Definition dollar_type (v : value) : value :=
  match v with
  | VPredicate p => VString (Predicate_type p)
  | _ => get v "$_type"
  end.

(** [Object.keys(o)] of a mapping. *)
Definition Object_keys (o : gmap string value) : list string :=
  (map_to_list o).*1.

(** [keys.includes(v)]: no key, a string, equals a value that is not a
    string. *)
Definition includes (keys : list string) (v : value) : bool :=
  match v with
  | VString s => bool_decide (s ∈ keys)
  | _ => false
  end.

(** ** The error taxonomy *)

(** Modelled from the spec: errors.js is not under src/.  Section 4.1
    gives a closed, flat set of ten kinds; they are the ten classes the
    invariants construct, [new errors.K(...)], each optionally with a
    diagnostic message. *)
Module errors.

Inductive kind : Type :=
| CompoundPredicateMustHaveAtLeastOneSubPredicate
| InvalidPredicateType
| RootPredicateMustBeACompoundPredicate
| PredicateMustBeAComparisonPredicate
| AddCurrentlyOnlySupportAfterInsertion
| TargetMustReferToADefinedType
| Target_idMustReferToADefinedTarget
| Operator_idMustReferToADefinedOperator
| ForbiddenCannotRemoveRootCompoundPredicate
| ForbiddenCannotRemoveLastComparisonPredicate.

Definition all : list kind :=
  [ CompoundPredicateMustHaveAtLeastOneSubPredicate; InvalidPredicateType;
    RootPredicateMustBeACompoundPredicate; PredicateMustBeAComparisonPredicate;
    AddCurrentlyOnlySupportAfterInsertion; TargetMustReferToADefinedType;
    Target_idMustReferToADefinedTarget; Operator_idMustReferToADefinedOperator;
    ForbiddenCannotRemoveRootCompoundPredicate;
    ForbiddenCannotRemoveLastComparisonPredicate ].

#[global] Instance kind_eq_dec : EqDecision kind.
Proof. solve_decision. Defined.

End errors.

(** An error object: [new errors.K()] has no message, [new errors.K(m)]
    has the message [m]. *)
Record Error : Type := mkError { err_kind : errors.kind; err_message : option string }.

Definition new (k : errors.kind) : Error := mkError k None.
Definition new_with (k : errors.kind) (m : string) : Error := mkError k (Some m).

(** A settled promise: [Promise.resolve(v)] or [Promise.reject(e)]. *)
Inductive Promise : Type :=
| resolve (v : value)
| reject (e : Error).

(** ** JSON.stringify of a string *)

Definition quote : ascii := ascii_of_nat 34.
Definition backslash : ascii := ascii_of_nat 92.

Definition hex_digit (n : nat) : ascii :=
  if (n <? 10)%nat then ascii_of_nat (48 + n) else ascii_of_nat (87 + n).

(** One code unit of a string inside a JSON string literal (QuoteJSONString):
    the quote and the backslash are escaped, the control characters below
    0x20 are written with their short escape or as a lower-case [\u00XX],
    anything else is written as it is. *)
Definition JSON_escape (c : ascii) : string :=
  let n := nat_of_ascii c in
  if (n =? 34)%nat then String backslash (String quote EmptyString)
  else if (n =? 92)%nat then String backslash (String backslash EmptyString)
  else if (n =? 8)%nat then String backslash "b"
  else if (n =? 9)%nat then String backslash "t"
  else if (n =? 10)%nat then String backslash "n"
  else if (n =? 12)%nat then String backslash "f"
  else if (n =? 13)%nat then String backslash "r"
  else if (n <? 32)%nat then
    String backslash
      (String "u" (String "0" (String "0"
         (String (hex_digit (n / 16)) (String (hex_digit (n mod 16)) EmptyString)))))
  else String c EmptyString.

Fixpoint JSON_escape_all (s : string) : string :=
  match s with
  | EmptyString => EmptyString
  | String c rest => JSON_escape c ++ JSON_escape_all rest
  end.

(** [JSON.stringify(s)] for a string [s]. *)
Definition JSON_stringify (s : string) : string :=
  String quote (JSON_escape_all s ++ String quote EmptyString).

(** ** The structural rules, as the invariants call them *)

(** The [rules] collaborator: the two queries with the arguments the
    invariants hand them.  [predicateToRemoveIsTheLastComparisonPredicate]
    is given the root and the two variant-check capabilities. *)
Record Rules : Type := mkRules {
  predicateToRemoveIsRootPredicate : value -> value -> bool;
  predicateToRemoveIsTheLastComparisonPredicate :
    value -> VariantCheck -> VariantCheck -> bool
}.

(** ** The invariants (invariants.js) *)

Module invariants.

Section module_exports.

Variable rules : Rules.

Definition CompoundPredicateMustHaveAtLeastOneSubPredicate (predicates : value) : Promise :=
  if negb (Array_isArray predicates) || (Array_length predicates =? 0)%nat
  then reject (new errors.CompoundPredicateMustHaveAtLeastOneSubPredicate)
  else resolve VUndefined.

Definition PredicateTypeMustBeValid (type : value) (acceptedTypes : gmap string value) : Promise :=
  if negb (includes (Object_keys acceptedTypes) type)
  then reject (new errors.InvalidPredicateType)
  else resolve VUndefined.

Definition RootPredicateMustBeACompoundPredicate
  (root : value) (CompoundPredicate : VariantCheck) : Promise :=
  if negb (is_ CompoundPredicate root)
  then reject (new errors.RootPredicateMustBeACompoundPredicate)
  else resolve root.

Definition PredicateMustBeAComparisonPredicate (root : value) : Promise :=
  if negb (is_Object root)
     || negb (strict_equals (dollar_type root) (VString "ComparisonPredicate"))
  then reject (new errors.PredicateMustBeAComparisonPredicate)
  else resolve VUndefined.

Definition AddOnlySupportsAfter (how : value) : Promise :=
  if negb (strict_equals how (VString "after"))
  then reject (new errors.AddCurrentlyOnlySupportAfterInsertion)
  else resolve VUndefined.

Definition TargetMustReferToADefinedType (type : Option_) (target : Target) : Promise :=
  if isNone type
  then reject (new_with errors.TargetMustReferToADefinedType
                 ("target " ++ JSON_stringify (target_id target)
                  ++ " does not refer to a defined type, target.type_id="
                  ++ JSON_stringify (type_id target)))
  else resolve (Option_value type).

Definition Target_idMustReferToADefinedTarget (target : Option_) : Promise :=
  if isNone target
  then reject (new errors.Target_idMustReferToADefinedTarget)
  else resolve (Option_to_value target).

Definition Operator_idMustReferToADefinedOperator (operator : Option_) : Promise :=
  if isNone operator
  then reject (new errors.Operator_idMustReferToADefinedOperator)
  else resolve (Option_to_value operator).

Definition RemovePredicateMustDifferFromRootPredicate
  (root predicateToRemove : value) : Promise :=
  if predicateToRemoveIsRootPredicate rules root predicateToRemove
  then reject (new errors.ForbiddenCannotRemoveRootCompoundPredicate)
  else resolve predicateToRemove.

Definition RemovePredicateCannotBeTheLastComparisonPredicate
  (root predicateToRemove : value)
  (CompoundPredicate ComparisonPredicate : VariantCheck) : Promise :=
  if is_ ComparisonPredicate predicateToRemove
     && predicateToRemoveIsTheLastComparisonPredicate rules
          root CompoundPredicate ComparisonPredicate
  then reject (new errors.ForbiddenCannotRemoveLastComparisonPredicate)
  else resolve VUndefined.

End module_exports.

End invariants.

(** ** The predicate tree *)

(** Every node of the subtree of [p], [p] first: a full traversal. *)
Fixpoint nodes (p : Predicate) : list Predicate :=
  p :: match p with
       | Comparison _ _ _ => []
       | Compound _ _ predicates => flat_map nodes predicates
       end.

Definition isComparison (p : Predicate) : bool :=
  match p with Comparison _ _ _ => true | Compound _ _ _ => false end.

Definition isCompound (p : Predicate) : bool :=
  match p with Compound _ _ _ => true | Comparison _ _ _ => false end.

(** The ComparisonPredicate leaves reachable from [p]. *)
Fixpoint leaves (p : Predicate) : list Predicate :=
  match p with
  | Comparison _ _ _ => [p]
  | Compound _ _ predicates => flat_map leaves predicates
  end.

(** The identities of the nodes of the subtree of [p], in the order of
    the traversal. *)
Fixpoint refs (p : Predicate) : list ref :=
  Predicate_ref p :: match p with
                     | Comparison _ _ _ => []
                     | Compound _ _ predicates => flat_map refs predicates
                     end.

(** The ComparisonPredicate leaves still reachable from [p] once the
    node [candidate] is removed, with its whole subtree: the traversal
    does not enter the removed node. *)
Fixpoint leaves_without (candidate : ref) (p : Predicate) : list Predicate :=
  if Pos.eqb (Predicate_ref p) candidate then []
  else match p with
       | Comparison _ _ _ => [p]
       | Compound _ _ predicates => flat_map (leaves_without candidate) predicates
       end.

(** The nodes a traversal of the value [root] visits: those of its
    subtree when it is a predicate, none otherwise. *)
Definition subtree (root : value) : list value :=
  match root with
  | VPredicate p => map VPredicate (nodes p)
  | _ => []
  end.

(** Modelled from the spec: the dataclasses are not under src/.  Section
    6 describes the capability as the polymorphism test "is this node of
    variant V", section 9 as the discrimination of a tagged union. *)
Module dataclasses.

Definition ComparisonPredicate : VariantCheck :=
  mkVariantCheck (fun v => match v with VPredicate p => isComparison p | _ => false end).

Definition CompoundPredicate : VariantCheck :=
  mkVariantCheck (fun v => match v with VPredicate p => isCompound p | _ => false end).

End dataclasses.

(** Modelled from the spec: rules.js is not under src/.  Section 4.2
    gives the two queries. *)
Module rules.

(** Modelled from the spec: "true iff candidate is reference-identical
    to root". *)
Definition predicateToRemoveIsRootPredicate (root predicateToRemove : value) : bool :=
  strict_equals root predicateToRemove.

(** Modelled from the spec: the number of ComparisonPredicate leaves a
    full traversal of [root] counts, a leaf being what the capability
    recognises. *)
Definition comparisonPredicateCount (root : value) (ComparisonPredicate : VariantCheck) : nat :=
  length (filter (fun v => is_ ComparisonPredicate v = true) (subtree root)).

(** Modelled from the spec: "true iff removing the candidate would leave
    zero ComparisonPredicate leaves reachable from root", counted "via a
    full subtree traversal of root".  The invariant hands the rule the
    root and the two capabilities and not the candidate, which it has
    already checked to be a ComparisonPredicate: the rule answers for a
    leaf of the tree, whose removal leaves none when the traversal counts
    exactly one. *)
Definition predicateToRemoveIsTheLastComparisonPredicate
  (root : value) (CompoundPredicate ComparisonPredicate : VariantCheck) : bool :=
  (comparisonPredicateCount root ComparisonPredicate =? 1)%nat.

Definition exports : Rules :=
  mkRules predicateToRemoveIsRootPredicate predicateToRemoveIsTheLastComparisonPredicate.

End rules.

(** ** The validation API as a whole *)

(** The ten invariants the module exports. *)
Inductive Invariant : Type :=
| ICompoundPredicateMustHaveAtLeastOneSubPredicate
| IPredicateTypeMustBeValid
| IRootPredicateMustBeACompoundPredicate
| IPredicateMustBeAComparisonPredicate
| IAddOnlySupportsAfter
| ITargetMustReferToADefinedType
| ITarget_idMustReferToADefinedTarget
| IOperator_idMustReferToADefinedOperator
| IRemovePredicateMustDifferFromRootPredicate
| IRemovePredicateCannotBeTheLastComparisonPredicate.

(** A call of an invariant with its arguments. *)
Inductive Call : Type :=
| CallCompoundPredicateMustHaveAtLeastOneSubPredicate (predicates : value)
| CallPredicateTypeMustBeValid (type : value) (acceptedTypes : gmap string value)
| CallRootPredicateMustBeACompoundPredicate (root : value) (CompoundPredicate : VariantCheck)
| CallPredicateMustBeAComparisonPredicate (root : value)
| CallAddOnlySupportsAfter (how : value)
| CallTargetMustReferToADefinedType (type : Option_) (target : Target)
| CallTarget_idMustReferToADefinedTarget (target : Option_)
| CallOperator_idMustReferToADefinedOperator (operator : Option_)
| CallRemovePredicateMustDifferFromRootPredicate (root predicateToRemove : value)
| CallRemovePredicateCannotBeTheLastComparisonPredicate
    (root predicateToRemove : value) (CompoundPredicate ComparisonPredicate : VariantCheck).

Definition invariant_of (c : Call) : Invariant :=
  match c with
  | CallCompoundPredicateMustHaveAtLeastOneSubPredicate _ =>
      ICompoundPredicateMustHaveAtLeastOneSubPredicate
  | CallPredicateTypeMustBeValid _ _ => IPredicateTypeMustBeValid
  | CallRootPredicateMustBeACompoundPredicate _ _ => IRootPredicateMustBeACompoundPredicate
  | CallPredicateMustBeAComparisonPredicate _ => IPredicateMustBeAComparisonPredicate
  | CallAddOnlySupportsAfter _ => IAddOnlySupportsAfter
  | CallTargetMustReferToADefinedType _ _ => ITargetMustReferToADefinedType
  | CallTarget_idMustReferToADefinedTarget _ => ITarget_idMustReferToADefinedTarget
  | CallOperator_idMustReferToADefinedOperator _ => IOperator_idMustReferToADefinedOperator
  | CallRemovePredicateMustDifferFromRootPredicate _ _ =>
      IRemovePredicateMustDifferFromRootPredicate
  | CallRemovePredicateCannotBeTheLastComparisonPredicate _ _ _ _ =>
      IRemovePredicateCannotBeTheLastComparisonPredicate
  end.

(** The module instantiated with [rules], called. *)
Definition run (rules : Rules) (c : Call) : Promise :=
  match c with
  | CallCompoundPredicateMustHaveAtLeastOneSubPredicate predicates =>
      invariants.CompoundPredicateMustHaveAtLeastOneSubPredicate predicates
  | CallPredicateTypeMustBeValid type acceptedTypes =>
      invariants.PredicateTypeMustBeValid type acceptedTypes
  | CallRootPredicateMustBeACompoundPredicate root CompoundPredicate =>
      invariants.RootPredicateMustBeACompoundPredicate root CompoundPredicate
  | CallPredicateMustBeAComparisonPredicate root =>
      invariants.PredicateMustBeAComparisonPredicate root
  | CallAddOnlySupportsAfter how => invariants.AddOnlySupportsAfter how
  | CallTargetMustReferToADefinedType type target =>
      invariants.TargetMustReferToADefinedType type target
  | CallTarget_idMustReferToADefinedTarget target =>
      invariants.Target_idMustReferToADefinedTarget target
  | CallOperator_idMustReferToADefinedOperator operator =>
      invariants.Operator_idMustReferToADefinedOperator operator
  | CallRemovePredicateMustDifferFromRootPredicate root predicateToRemove =>
      invariants.RemovePredicateMustDifferFromRootPredicate rules root predicateToRemove
  | CallRemovePredicateCannotBeTheLastComparisonPredicate
      root predicateToRemove CompoundPredicate ComparisonPredicate =>
      invariants.RemovePredicateCannotBeTheLastComparisonPredicate rules
        root predicateToRemove CompoundPredicate ComparisonPredicate
  end.

(** The kind section 4.3 lists for each invariant under "Fails with". *)
Definition raises (i : Invariant) : errors.kind :=
  match i with
  | ICompoundPredicateMustHaveAtLeastOneSubPredicate =>
      errors.CompoundPredicateMustHaveAtLeastOneSubPredicate
  | IPredicateTypeMustBeValid => errors.InvalidPredicateType
  | IRootPredicateMustBeACompoundPredicate => errors.RootPredicateMustBeACompoundPredicate
  | IPredicateMustBeAComparisonPredicate => errors.PredicateMustBeAComparisonPredicate
  | IAddOnlySupportsAfter => errors.AddCurrentlyOnlySupportAfterInsertion
  | ITargetMustReferToADefinedType => errors.TargetMustReferToADefinedType
  | ITarget_idMustReferToADefinedTarget => errors.Target_idMustReferToADefinedTarget
  | IOperator_idMustReferToADefinedOperator => errors.Operator_idMustReferToADefinedOperator
  | IRemovePredicateMustDifferFromRootPredicate =>
      errors.ForbiddenCannotRemoveRootCompoundPredicate
  | IRemovePredicateCannotBeTheLastComparisonPredicate =>
      errors.ForbiddenCannotRemoveLastComparisonPredicate
  end.

(** The kind a promise was rejected with, if it was. *)
Definition rejection (p : Promise) : option errors.kind :=
  match p with
  | reject e => Some (err_kind e)
  | resolve _ => None
  end.

(** ** Removing a comparison from a tree *)

(** RemovePredicateCannotBeTheLastComparisonPredicate as the tree-editing
    service calls it on predicate nodes: the module instantiated with
    rules.js, the two dataclasses as capabilities. *)
Definition removeLast (root candidate : Predicate) : Promise :=
  invariants.RemovePredicateCannotBeTheLastComparisonPredicate rules.exports
    (VPredicate root) (VPredicate candidate)
    dataclasses.CompoundPredicate dataclasses.ComparisonPredicate.

(** The reading of section 8: the invariant is rejected with
    ForbiddenCannotRemoveLastComparisonPredicate exactly when removing the
    candidate leaves no ComparisonPredicate reachable from the root. *)
Definition fails_iff_none_left (R : Rules) (root candidate : Predicate) : Prop :=
  invariants.RemovePredicateCannotBeTheLastComparisonPredicate R
    (VPredicate root) (VPredicate candidate)
    dataclasses.CompoundPredicate dataclasses.ComparisonPredicate
  = reject (new errors.ForbiddenCannotRemoveLastComparisonPredicate)
  <-> leaves_without (Predicate_ref candidate) root = [].

(** A group holding one comparison, and a comparison that is not in it. *)
Definition title_is : Predicate := Comparison 2%positive "article.title" "is".
Definition date_before : Predicate := Comparison 3%positive "article.date" "before".
Definition one_leaf : Predicate := Compound 1%positive AND [title_is].

(** A group holding a comparison and a nested group with another one. *)
Definition two_leaves : Predicate :=
  Compound 1%positive AND [title_is; Compound 4%positive OR [date_before]].

(** ** Structure and identity *)

(** The structure of a node: what it holds, identities left out. *)
Fixpoint Predicate_structure (p : Predicate) : Predicate :=
  match p with
  | Comparison _ t o => Comparison 1%positive t o
  | Compound _ l predicates => Compound 1%positive l (map Predicate_structure predicates)
  end.

(** The structure of a value: two values are structurally distinct when
    their structures differ. *)
Fixpoint structure (v : value) : value :=
  match v with
  | VArray _ items => VArray 1%positive (map structure items)
  | VObject _ props proto =>
      VObject 1%positive
        (map (fun kv => match kv with (k, x) => (k, structure x) end) props)
        (structure proto)
  | VOption _ content => VOption 1%positive (option_map structure content)
  | VPredicate p => VPredicate (Predicate_structure p)
  | _ => v
  end.

(** Two values of one heap: an identity names one object, so two objects
    with the same identity are the same value. *)
Definition one_heap (a b : value) : Prop :=
  forall r, ref_of a = Some r -> ref_of b = Some r -> a = b.

(** Reference identity: the same object, or the same primitive. *)
Definition same_reference (a b : value) : Prop :=
  match ref_of a, ref_of b with
  | Some ra, Some rb => ra = rb
  | None, None => a = b
  | _, _ => False
  end.

(** ** Sample values *)

Definition title_target : value :=
  VObject 7%positive
    [("target_id", VString "article.title"); ("type_id", VString "string")] VNull.

Definition operator_is : value :=
  VObject 8%positive [("operator_id", VString "is")] VNull.

Definition string_type : value :=
  VObject 9%positive [("type_id", VString "string")] VNull.

Definition present (r : ref) (v : value) : Option_ := mkOption r (Some v).
Definition absent (r : ref) : Option_ := mkOption r None.

(** ** Reading a diagnostic message back *)

(** [needle] occurs in [hay]. *)
Definition embeds (needle hay : string) : Prop :=
  exists before after, hay = before ++ needle ++ after.

(** [s] without its prefix [p], when it starts with it. *)
Fixpoint strip_prefix (p s : string) : option string :=
  match p with
  | EmptyString => Some s
  | String c p' =>
      match s with
      | String d s' => if Ascii.eqb c d then strip_prefix p' s' else None
      | EmptyString => None
      end
  end.

Definition unhex (c : ascii) : option nat :=
  let n := nat_of_ascii c in
  if (48 <=? n)%nat && (n <=? 57)%nat then Some (n - 48)%nat
  else if (97 <=? n)%nat && (n <=? 102)%nat then Some (n - 87)%nat
  else None.

Definition cons_fst (c : ascii) (r : option (string * string)) : option (string * string) :=
  match r with
  | Some (s, rest) => Some (String c s, rest)
  | None => None
  end.

(** The content of a JSON string literal read from after its opening
    quote up to its closing quote, and what follows the literal. *)
Fixpoint JSON_unescape (s : string) : option (string * string) :=
  match s with
  | EmptyString => None
  | String c rest =>
      if Ascii.eqb c quote then Some (EmptyString, rest)
      else if Ascii.eqb c backslash then
        match rest with
        | String e rest1 =>
            if Ascii.eqb e quote then cons_fst quote (JSON_unescape rest1)
            else if Ascii.eqb e backslash then cons_fst backslash (JSON_unescape rest1)
            else if Ascii.eqb e "b" then cons_fst (ascii_of_nat 8) (JSON_unescape rest1)
            else if Ascii.eqb e "t" then cons_fst (ascii_of_nat 9) (JSON_unescape rest1)
            else if Ascii.eqb e "n" then cons_fst (ascii_of_nat 10) (JSON_unescape rest1)
            else if Ascii.eqb e "f" then cons_fst (ascii_of_nat 12) (JSON_unescape rest1)
            else if Ascii.eqb e "r" then cons_fst (ascii_of_nat 13) (JSON_unescape rest1)
            else if Ascii.eqb e "u" then
              match rest1 with
              | String h1 (String h2 (String h3 (String h4 rest2))) =>
                  match unhex h1, unhex h2, unhex h3, unhex h4 with
                  | Some 0%nat, Some 0%nat, Some a, Some b =>
                      cons_fst (ascii_of_nat (16 * a + b)) (JSON_unescape rest2)
                  | _, _, _, _ => None
                  end
              | _ => None
              end
            else None
        | EmptyString => None
        end
      else if (nat_of_ascii c <? 32)%nat then None
      else cons_fst c (JSON_unescape rest)
  end.

(** The string a JSON string literal at the start of [s] denotes, and
    what follows the literal. *)
Definition JSON_parse_string (s : string) : option (string * string) :=
  match s with
  | String c rest => if Ascii.eqb c quote then JSON_unescape rest else None
  | EmptyString => None
  end.

(** The two identifiers a message of TargetMustReferToADefinedType holds. *)
Definition ids_of_message (m : string) : option (string * string) :=
  match strip_prefix "target " m with
  | Some m1 =>
      match JSON_parse_string m1 with
      | Some (target_id, m2) =>
          match strip_prefix " does not refer to a defined type, target.type_id=" m2 with
          | Some m3 =>
              match JSON_parse_string m3 with
              | Some (type_id, EmptyString) => Some (target_id, type_id)
              | _ => None
              end
          | None => None
          end
      | None => None
      end
  | None => None
  end.

Definition all_invariants : list Invariant :=
  [ ICompoundPredicateMustHaveAtLeastOneSubPredicate; IPredicateTypeMustBeValid;
    IRootPredicateMustBeACompoundPredicate; IPredicateMustBeAComparisonPredicate;
    IAddOnlySupportsAfter; ITargetMustReferToADefinedType;
    ITarget_idMustReferToADefinedTarget; IOperator_idMustReferToADefinedOperator;
    IRemovePredicateMustDifferFromRootPredicate;
    IRemovePredicateCannotBeTheLastComparisonPredicate ].

(** A call of each invariant that is rejected. *)
Definition rejected_call (i : Invariant) : Call :=
  match i with
  | ICompoundPredicateMustHaveAtLeastOneSubPredicate =>
      CallCompoundPredicateMustHaveAtLeastOneSubPredicate (VArray 10%positive [])
  | IPredicateTypeMustBeValid => CallPredicateTypeMustBeValid (VString "Unknown") ∅
  | IRootPredicateMustBeACompoundPredicate =>
      CallRootPredicateMustBeACompoundPredicate (VPredicate title_is)
        dataclasses.CompoundPredicate
  | IPredicateMustBeAComparisonPredicate =>
      CallPredicateMustBeAComparisonPredicate (VPredicate one_leaf)
  | IAddOnlySupportsAfter => CallAddOnlySupportsAfter (VString "before")
  | ITargetMustReferToADefinedType =>
      CallTargetMustReferToADefinedType (absent 11%positive)
        (mkTarget "article.title" "string")
  | ITarget_idMustReferToADefinedTarget =>
      CallTarget_idMustReferToADefinedTarget (absent 12%positive)
  | IOperator_idMustReferToADefinedOperator =>
      CallOperator_idMustReferToADefinedOperator (absent 13%positive)
  | IRemovePredicateMustDifferFromRootPredicate =>
      CallRemovePredicateMustDifferFromRootPredicate
        (VPredicate one_leaf) (VPredicate one_leaf)
  | IRemovePredicateCannotBeTheLastComparisonPredicate =>
      CallRemovePredicateCannotBeTheLastComparisonPredicate
        (VPredicate one_leaf) (VPredicate title_is)
        dataclasses.CompoundPredicate dataclasses.ComparisonPredicate
  end.

(** ** What a call is given, and what a message is made of *)

(** The values a call hands the invariant: its arguments, and what an
    Option among them holds. *)
Definition given_Option (o : Option_) : list value :=
  Option_to_value o :: match option_content o with Some v => [v] | None => [] end.

Definition given (c : Call) : list value :=
  match c with
  | CallCompoundPredicateMustHaveAtLeastOneSubPredicate predicates => [predicates]
  | CallPredicateTypeMustBeValid type _ => [type]
  | CallRootPredicateMustBeACompoundPredicate root _ => [root]
  | CallPredicateMustBeAComparisonPredicate root => [root]
  | CallAddOnlySupportsAfter how => [how]
  | CallTargetMustReferToADefinedType type _ => given_Option type
  | CallTarget_idMustReferToADefinedTarget target => given_Option target
  | CallOperator_idMustReferToADefinedOperator operator => given_Option operator
  | CallRemovePredicateMustDifferFromRootPredicate root predicateToRemove =>
      [root; predicateToRemove]
  | CallRemovePredicateCannotBeTheLastComparisonPredicate root predicateToRemove _ _ =>
      [root; predicateToRemove]
  end.

(** The message a promise was rejected with, if it was and has one. *)
Definition rejection_message (p : Promise) : option string :=
  match p with
  | reject e => err_message e
  | resolve _ => None
  end.



(** What [w.value()] gives for a yielded value [w] that is a present
    Option. *)
Definition unwrap (w : value) : option value :=
  match w with
  | VOption _ content => content
  | _ => None
  end.

(** ** Runs in a world with state *)

(** The invariants call code they are handed: [CompoundPredicate.is],
    [ComparisonPredicate.is], the two rules, and the methods [isNone] and
    [value] of an Option.  In JavaScript such a call may read and change
    state outside the module.  [W] is that state: a run takes the world
    as it is and gives the world as it leaves it.  What the invariants do
    themselves (tests on their arguments, the construction of an error)
    touches no state. *)
Module world.

Section World.

Variable W : Type.

Definition Run (A : Type) : Type := W -> A * W.

Definition ret {A : Type} (a : A) : Run A := fun w => (a, w).

Definition bind {A B : Type} (m : Run A) (k : A -> Run B) : Run B :=
  fun w => match m w with (a, w') => k a w' end.

(** A capability whose [is] runs in the world. *)
Record Capability : Type := mkCapability { call_is : value -> Run bool }.

(** An Option whose methods run in the world: the object itself, its
    [isNone] and its [value]. *)
Record WorldOption : Type := mkWorldOption {
  self : value;
  call_isNone : Run bool;
  call_value : Run value
}.

(** The rules, run in the world. *)
Record WorldRules : Type := mkWorldRules {
  call_predicateToRemoveIsRootPredicate : value -> value -> Run bool;
  call_predicateToRemoveIsTheLastComparisonPredicate :
    value -> Capability -> Capability -> Run bool
}.

Variable rules : WorldRules.

(** invariants.js:48-53. *)
Definition RootPredicateMustBeACompoundPredicate
  (root : value) (CompoundPredicate : Capability) : Run Promise :=
  bind (call_is CompoundPredicate root) (fun is_compound =>
  if negb is_compound
  then ret (reject (new errors.RootPredicateMustBeACompoundPredicate))
  else ret (resolve root)).

(** invariants.js:89-102: [value] is called only on an Option that
    answered that it is not none. *)
Definition TargetMustReferToADefinedType (type : WorldOption) (target : Target) : Run Promise :=
  bind (call_isNone type) (fun is_none =>
  if is_none
  then ret (reject (new_with errors.TargetMustReferToADefinedType
                      ("target " ++ JSON_stringify (target_id target)
                       ++ " does not refer to a defined type, target.type_id="
                       ++ JSON_stringify (type_id target))))
  else bind (call_value type) (fun unwrapped => ret (resolve unwrapped))).

(** invariants.js:110-115. *)
Definition Target_idMustReferToADefinedTarget (target : WorldOption) : Run Promise :=
  bind (call_isNone target) (fun is_none =>
  if is_none
  then ret (reject (new errors.Target_idMustReferToADefinedTarget))
  else ret (resolve (self target))).

(** invariants.js:123-130. *)
Definition Operator_idMustReferToADefinedOperator (operator : WorldOption) : Run Promise :=
  bind (call_isNone operator) (fun is_none =>
  if is_none
  then ret (reject (new errors.Operator_idMustReferToADefinedOperator))
  else ret (resolve (self operator))).

(** invariants.js:139-147. *)
Definition RemovePredicateMustDifferFromRootPredicate
  (root predicateToRemove : value) : Run Promise :=
  bind (call_predicateToRemoveIsRootPredicate rules root predicateToRemove) (fun is_root =>
  if is_root
  then ret (reject (new errors.ForbiddenCannotRemoveRootCompoundPredicate))
  else ret (resolve predicateToRemove)).

(** invariants.js:158-178: [&&] calls the rule only when the capability
    answered true. *)
Definition RemovePredicateCannotBeTheLastComparisonPredicate
  (root predicateToRemove : value)
  (CompoundPredicate ComparisonPredicate : Capability) : Run Promise :=
  bind (call_is ComparisonPredicate predicateToRemove) (fun is_comparison =>
  if is_comparison
  then bind (call_predicateToRemoveIsTheLastComparisonPredicate rules
               root CompoundPredicate ComparisonPredicate) (fun is_last =>
       if is_last
       then ret (reject (new errors.ForbiddenCannotRemoveLastComparisonPredicate))
       else ret (resolve VUndefined))
  else ret (resolve VUndefined)).

(** A call of an invariant in the world. *)
Inductive Invocation : Type :=
| InvokeCompoundPredicateMustHaveAtLeastOneSubPredicate (predicates : value)
| InvokePredicateTypeMustBeValid (type : value) (acceptedTypes : gmap string value)
| InvokeRootPredicateMustBeACompoundPredicate (root : value) (CompoundPredicate : Capability)
| InvokePredicateMustBeAComparisonPredicate (root : value)
| InvokeAddOnlySupportsAfter (how : value)
| InvokeTargetMustReferToADefinedType (type : WorldOption) (target : Target)
| InvokeTarget_idMustReferToADefinedTarget (target : WorldOption)
| InvokeOperator_idMustReferToADefinedOperator (operator : WorldOption)
| InvokeRemovePredicateMustDifferFromRootPredicate (root predicateToRemove : value)
| InvokeRemovePredicateCannotBeTheLastComparisonPredicate
    (root predicateToRemove : value) (CompoundPredicate ComparisonPredicate : Capability).

(** The run of a call.  The four invariants that call nothing they were
    handed settle at once. *)
Definition exec (c : Invocation) : Run Promise :=
  match c with
  | InvokeCompoundPredicateMustHaveAtLeastOneSubPredicate predicates =>
      ret (invariants.CompoundPredicateMustHaveAtLeastOneSubPredicate predicates)
  | InvokePredicateTypeMustBeValid type acceptedTypes =>
      ret (invariants.PredicateTypeMustBeValid type acceptedTypes)
  | InvokeRootPredicateMustBeACompoundPredicate root CompoundPredicate =>
      RootPredicateMustBeACompoundPredicate root CompoundPredicate
  | InvokePredicateMustBeAComparisonPredicate root =>
      ret (invariants.PredicateMustBeAComparisonPredicate root)
  | InvokeAddOnlySupportsAfter how => ret (invariants.AddOnlySupportsAfter how)
  | InvokeTargetMustReferToADefinedType type target =>
      TargetMustReferToADefinedType type target
  | InvokeTarget_idMustReferToADefinedTarget target =>
      Target_idMustReferToADefinedTarget target
  | InvokeOperator_idMustReferToADefinedOperator operator =>
      Operator_idMustReferToADefinedOperator operator
  | InvokeRemovePredicateMustDifferFromRootPredicate root predicateToRemove =>
      RemovePredicateMustDifferFromRootPredicate root predicateToRemove
  | InvokeRemovePredicateCannotBeTheLastComparisonPredicate
      root predicateToRemove CompoundPredicate ComparisonPredicate =>
      RemovePredicateCannotBeTheLastComparisonPredicate
        root predicateToRemove CompoundPredicate ComparisonPredicate
  end.







(** What a capability answers in the world [w]. *)
Definition observe (c : Capability) (w : W) : VariantCheck :=
  mkVariantCheck (fun v => fst (call_is c v w)).


End World.

(** Rules without state, run in the world: they ask the capabilities
    what they answer in the world as it is. *)
Definition pure_rules (W : Type) (R : Rules) : WorldRules W :=
  mkWorldRules W
    (fun root predicateToRemove =>
       ret W (predicateToRemoveIsRootPredicate R root predicateToRemove))
    (fun root CompoundPredicate ComparisonPredicate w =>
       (predicateToRemoveIsTheLastComparisonPredicate R root
          (observe W CompoundPredicate w) (observe W ComparisonPredicate w), w)).

(** A capability with state: it answers true in every other world, and
    each call moves the world on. *)
Definition flip : Capability nat :=
  mkCapability nat (fun _ w => (Nat.even w, S w)).

End world.

(** ** Proof automation *)

(** Settles a goal about an invariant by the two branches of its guard. *)
Ltac by_guard :=
  match goal with
  | |- context [if ?guard then _ else _] => destruct guard
  end; simpl; auto.

(** * Properties *)

(** ** CompoundPredicateMustHaveAtLeastOneSubPredicate *)

(** C8. CompoundPredicateMustHaveAtLeastOneSubPredicate passes for every
    non-empty array of child predicates, whatever it holds; for the empty
    array and for every value that is not an array ([null], [undefined], a
    string, an object, ...) it is rejected with
    CompoundPredicateMustHaveAtLeastOneSubPredicate. *)
Theorem CompoundPredicateMustHaveAtLeastOneSubPredicate_spec :
  (forall r child children,
      invariants.CompoundPredicateMustHaveAtLeastOneSubPredicate (VArray r (child :: children))
      = resolve VUndefined)
  /\ (forall r,
      invariants.CompoundPredicateMustHaveAtLeastOneSubPredicate (VArray r [])
      = reject (new errors.CompoundPredicateMustHaveAtLeastOneSubPredicate))
  /\ (forall v,
      Array_isArray v = false ->
      invariants.CompoundPredicateMustHaveAtLeastOneSubPredicate v
      = reject (new errors.CompoundPredicateMustHaveAtLeastOneSubPredicate))
  /\ invariants.CompoundPredicateMustHaveAtLeastOneSubPredicate VNull
     = reject (new errors.CompoundPredicateMustHaveAtLeastOneSubPredicate).
Proof.
  split; [|split; [|split]].
  - intros r child children. reflexivity.
  - intros r. reflexivity.
  - intros v Hv.
    unfold invariants.CompoundPredicateMustHaveAtLeastOneSubPredicate.
    rewrite Hv. reflexivity.
  - reflexivity.
Qed.

Lemma CompoundPredicateMustHaveAtLeastOneSubPredicate_spec_witness :
  Array_isArray (VString "predicates") = false
  /\ invariants.CompoundPredicateMustHaveAtLeastOneSubPredicate (VString "predicates")
     = reject (new errors.CompoundPredicateMustHaveAtLeastOneSubPredicate).
Proof.
  split; [reflexivity|].
  exact (proj1 (proj2 (proj2 CompoundPredicateMustHaveAtLeastOneSubPredicate_spec))
           (VString "predicates") eq_refl).
Defined.

(** ** PredicateTypeMustBeValid *)

Lemma Object_keys_dom (o : gmap string value) (k : string) :
  k ∈ Object_keys o <-> k ∈ dom o.
Proof.
  unfold Object_keys. rewrite elem_of_dom, list_elem_of_fmap. split.
  - intros [[k' v] [-> Hin]]. apply elem_of_map_to_list in Hin. exists v. exact Hin.
  - intros [v Hv]. exists (k, v). split; [reflexivity|].
    apply elem_of_map_to_list. exact Hv.
Qed.

Lemma includes_keys_dom (o : gmap string value) (type : value) :
  includes (Object_keys o) type
  = match type with VString s => bool_decide (s ∈ dom o) | _ => false end.
Proof.
  destruct type; simpl; try reflexivity.
  apply bool_decide_ext, Object_keys_dom.
Qed.

(** The invariant passes exactly for a tag that is a key of the mapping. *)
Lemma PredicateTypeMustBeValid_spec (type : value) (acceptedTypes : gmap string value) :
  invariants.PredicateTypeMustBeValid type acceptedTypes
  = match type with
    | VString s =>
        if bool_decide (s ∈ dom acceptedTypes) then resolve VUndefined
        else reject (new errors.InvalidPredicateType)
    | _ => reject (new errors.InvalidPredicateType)
    end.
Proof.
  unfold invariants.PredicateTypeMustBeValid. rewrite includes_keys_dom.
  destruct type; simpl; try reflexivity.
  destruct (bool_decide (s ∈ dom acceptedTypes)); reflexivity.
Qed.

(** C10. The outcome of PredicateTypeMustBeValid depends on the type tag
    and on the set of keys of the accepted-types mapping only: two
    mappings with the same keys give the same outcome for every tag,
    whatever values they hold. *)
Theorem PredicateTypeMustBeValid_keys_only
  (type : value) (accepted accepted' : gmap string value) :
  dom accepted = dom accepted' ->
  invariants.PredicateTypeMustBeValid type accepted
  = invariants.PredicateTypeMustBeValid type accepted'.
Proof.
  intros Hdom. rewrite !PredicateTypeMustBeValid_spec.
  destruct type; try reflexivity.
  rewrite Hdom. reflexivity.
Qed.

Lemma PredicateTypeMustBeValid_keys_only_witness :
  dom ({[ "ComparisonPredicate" := VNull ]} : gmap string value)
  = dom ({[ "ComparisonPredicate" := VBool true ]} : gmap string value)
  /\ invariants.PredicateTypeMustBeValid (VString "ComparisonPredicate")
       {[ "ComparisonPredicate" := VNull ]}
     = invariants.PredicateTypeMustBeValid (VString "ComparisonPredicate")
       {[ "ComparisonPredicate" := VBool true ]}.
Proof.
  assert (H : dom ({[ "ComparisonPredicate" := VNull ]} : gmap string value)
              = dom ({[ "ComparisonPredicate" := VBool true ]} : gmap string value)).
  { rewrite !dom_singleton_L. reflexivity. }
  split; [exact H|].
  exact (PredicateTypeMustBeValid_keys_only _ _ _ H).
Defined.

(** ** RemovePredicateCannotBeTheLastComparisonPredicate *)

(** What the invariant does, for any rules and capabilities. *)
Lemma RemovePredicateCannotBeTheLastComparisonPredicate_unfold
  (R : Rules) (root candidate : value) (CP CmpP : VariantCheck) :
  invariants.RemovePredicateCannotBeTheLastComparisonPredicate R root candidate CP CmpP
  = if is_ CmpP candidate
    then if predicateToRemoveIsTheLastComparisonPredicate R root CP CmpP
         then reject (new errors.ForbiddenCannotRemoveLastComparisonPredicate)
         else resolve VUndefined
    else resolve VUndefined.
Proof.
  unfold invariants.RemovePredicateCannotBeTheLastComparisonPredicate.
  destruct (is_ CmpP candidate); reflexivity.
Qed.

(** C9. For any rules, any root and any two candidates that the
    ComparisonPredicate capability recognises, the invariant settles
    alike: the rule is asked about the root and the capabilities, never
    about the candidate. *)
Theorem RemovePredicateCannotBeTheLastComparisonPredicate_ignores_candidate
  (R : Rules) (root candidate candidate' : value) (CP CmpP : VariantCheck) :
  is_ CmpP candidate = true ->
  is_ CmpP candidate' = true ->
  invariants.RemovePredicateCannotBeTheLastComparisonPredicate R root candidate CP CmpP
  = invariants.RemovePredicateCannotBeTheLastComparisonPredicate R root candidate' CP CmpP.
Proof.
  intros H H'.
  rewrite !RemovePredicateCannotBeTheLastComparisonPredicate_unfold, H, H'.
  reflexivity.
Qed.

(** *** The tree: traversal, leaves and removal *)

(** Induction on a predicate tree, with the hypothesis for every child
    of a compound node. *)
Lemma Predicate_tree_ind (P : Predicate -> Prop) :
  (forall r t o, P (Comparison r t o)) ->
  (forall r l ps, Forall P ps -> P (Compound r l ps)) ->
  forall p, P p.
Proof.
  intros Hleaf Hnode. fix IH 1. intros [r t o | r l ps].
  - apply Hleaf.
  - apply Hnode. induction ps as [|q qs IHqs].
    + constructor.
    + constructor; [apply IH | exact IHqs].
Qed.

Lemma elem_of_flat_map {A B} (f : A -> list B) (l : list A) (y : B) :
  y ∈ flat_map f l <-> exists x, x ∈ l /\ y ∈ f x.
Proof.
  rewrite list_elem_of_In, in_flat_map. split.
  - intros [x [Hx Hy]]. exists x. split; apply list_elem_of_In; assumption.
  - intros [x [Hx Hy]]. exists x. split; apply list_elem_of_In; assumption.
Qed.

Lemma nodes_refs (p c : Predicate) : c ∈ nodes p -> Predicate_ref c ∈ refs p.
Proof.
  induction p as [r t o | r l ps IH] using Predicate_tree_ind; simpl; intros Hc.
  - apply elem_of_cons in Hc as [-> | Hc]; [left | inversion Hc].
  - apply elem_of_cons in Hc as [-> | Hc]; [left|]. right.
    apply elem_of_flat_map in Hc as [q [Hq Hc]]. apply elem_of_flat_map.
    exists q. split; [exact Hq|]. rewrite Forall_forall in IH. apply (IH q Hq Hc).
Qed.

(** Removing a node that is not in the tree removes nothing. *)
Lemma leaves_without_absent (c : ref) (p : Predicate) :
  c ∉ refs p -> leaves_without c p = leaves p.
Proof.
  induction p as [r t o | r l ps IH] using Predicate_tree_ind; simpl; intros Hc.
  - destruct (Pos.eqb_spec r c) as [-> | Hne]; [|reflexivity].
    exfalso. apply Hc. left.
  - destruct (Pos.eqb_spec r c) as [-> | Hne]; [exfalso; apply Hc; left|].
    assert (Hps : c ∉ flat_map refs ps) by (intros H; apply Hc; right; exact H).
    clear Hc Hne. induction ps as [|q qs IHqs]; [reflexivity|].
    simpl in *. rewrite elem_of_app in Hps.
    apply Forall_cons in IH as [Hq Hqs].
    rewrite Hq, IHqs; auto.
Qed.

Lemma leaves_without_absent_list (c : ref) (ps : list Predicate) :
  c ∉ flat_map refs ps ->
  flat_map (leaves_without c) ps = flat_map leaves ps.
Proof.
  induction ps as [|q qs IH]; simpl; [reflexivity|].
  rewrite elem_of_app. intros Hc.
  rewrite leaves_without_absent, IH; auto.
Qed.

(** Removing a leaf of a tree whose nodes are all distinct objects leaves
    one leaf less. *)
Lemma leaves_without_leaf (c p : Predicate) :
  isComparison c = true ->
  c ∈ nodes p ->
  NoDup (refs p) ->
  S (length (leaves_without (Predicate_ref c) p)) = length (leaves p).
Proof.
  intros Hleaf.
  induction p as [r t o | r l ps IH] using Predicate_tree_ind; simpl; intros Hc Hnd.
  - apply elem_of_cons in Hc as [-> | Hc]; [|inversion Hc].
    simpl. rewrite Pos.eqb_refl. reflexivity.
  - apply elem_of_cons in Hc as [-> | Hc]; [discriminate Hleaf|].
    apply NoDup_cons in Hnd as [Hr Hnd].
    destruct (Pos.eqb_spec r (Predicate_ref c)) as [-> | _].
    { exfalso. apply Hr. change (Predicate_ref c ∈ flat_map refs ps).
      apply elem_of_flat_map in Hc as [q [Hq Hc]]. apply elem_of_flat_map.
      exists q. split; [exact Hq | apply nodes_refs, Hc]. }
    clear Hr. induction ps as [|q qs IHqs]; simpl in *; [inversion Hc|].
    apply Forall_cons in IH as [Hq Hqs].
    apply NoDup_app in Hnd as (Hndq & Hdisj & Hndqs).
    rewrite !length_app. apply elem_of_app in Hc as [Hc | Hc].
    + rewrite <- (Hq Hc Hndq).
      rewrite leaves_without_absent_list; [reflexivity|].
      apply Hdisj, nodes_refs, Hc.
    + rewrite <- (IHqs Hqs Hc Hndqs).
      rewrite leaves_without_absent; [lia|].
      intros Hin. apply (Hdisj _ Hin).
      apply elem_of_flat_map in Hc as [q' [Hq' Hc]]. apply elem_of_flat_map.
      exists q'. split; [exact Hq' | apply nodes_refs, Hc].
Qed.

Lemma filter_flat_map {A B} (P : B -> Prop) `{forall x, Decision (P x)}
  (f : A -> list B) (l : list A) :
  filter P (flat_map f l) = flat_map (fun x => filter P (f x)) l.
Proof.
  induction l as [|x l IH]; simpl; [reflexivity|].
  rewrite filter_app, IH. reflexivity.
Qed.

(** The leaves are the nodes of the traversal that are comparisons. *)
Lemma leaves_nodes (p : Predicate) :
  leaves p = filter (fun q => isComparison q = true) (nodes p).
Proof.
  induction p as [r t o | r l ps IH] using Predicate_tree_ind; simpl.
  - reflexivity.
  - rewrite filter_cons_False by (simpl; discriminate).
    rewrite filter_flat_map. induction IH as [|q qs Hq _ IHqs]; simpl; [reflexivity|].
    rewrite Hq, IHqs. reflexivity.
Qed.

(** The count of the rule on a tree is the number of its leaves. *)
Lemma comparisonPredicateCount_leaves (p : Predicate) :
  rules.comparisonPredicateCount (VPredicate p) dataclasses.ComparisonPredicate
  = length (leaves p).
Proof.
  unfold rules.comparisonPredicateCount. simpl subtree.
  rewrite leaves_nodes. generalize (nodes p). intros l.
  induction l as [|q l IH]; [reflexivity|].
  change (map VPredicate (q :: l)) with (VPredicate q :: map VPredicate l).
  destruct (isComparison q) eqn:Hq.
  - rewrite !filter_cons_True by (simpl; exact Hq).
    simpl length. f_equal. exact IH.
  - rewrite !filter_cons_False by (simpl; rewrite Hq; discriminate). exact IH.
Qed.

(** *** The invariant on the nodes of a tree *)

Lemma removeLast_unfold (root c : Predicate) :
  removeLast root c
  = if isComparison c && (length (leaves root) =? 1)%nat
    then reject (new errors.ForbiddenCannotRemoveLastComparisonPredicate)
    else resolve VUndefined.
Proof.
  unfold removeLast, invariants.RemovePredicateCannotBeTheLastComparisonPredicate.
  simpl. unfold rules.predicateToRemoveIsTheLastComparisonPredicate.
  rewrite comparisonPredicateCount_leaves. reflexivity.
Qed.

(** C1, as stated, fails: the rule is not told which node is removed, so no rule at all makes the invariant reject exactly
    when the removal leaves no comparison.  With the group [one_leaf],
    removing its comparison leaves none, removing a comparison that is not
    in it leaves one, and the invariant settles both alike. *)
Lemma fails_iff_none_left_refuted :
  ~ exists R : Rules,
      forall candidate, isComparison candidate = true ->
                        fails_iff_none_left R one_leaf candidate.
Proof.
  intros [R HR].
  pose proof (HR title_is eq_refl) as [_ Hin].
  pose proof (HR date_before eq_refl) as [Hout _].
  unfold fails_iff_none_left in Hin, Hout.
  rewrite RemovePredicateCannotBeTheLastComparisonPredicate_unfold in Hin, Hout.
  simpl in Hin, Hout.
  specialize (Hin eq_refl).
  destruct (predicateToRemoveIsTheLastComparisonPredicate R (VPredicate one_leaf)
              dataclasses.CompoundPredicate dataclasses.ComparisonPredicate).
  - specialize (Hout eq_refl). discriminate Hout.
  - discriminate Hin.
Qed.

(** With the rule of rules.js: the removal of [date_before], which is not
    in the group, is rejected although it leaves the group its comparison. *)
Example removeLast_outside_tree :
  removeLast one_leaf date_before
  = reject (new errors.ForbiddenCannotRemoveLastComparisonPredicate)
  /\ leaves_without (Predicate_ref date_before) one_leaf = [title_is].
Proof. split; reflexivity. Qed.

(** C1, amended. For a root whose nodes are all distinct objects and a
    candidate that is one of its ComparisonPredicate leaves,
    RemovePredicateCannotBeTheLastComparisonPredicate is rejected with
    ForbiddenCannotRemoveLastComparisonPredicate exactly when removing
    the candidate leaves no ComparisonPredicate reachable from the root,
    and passes otherwise.  In particular it is rejected when the root
    has exactly one leaf, and passes when it has two or more. *)
Theorem RemovePredicateCannotBeTheLastComparisonPredicate_on_tree
  (root candidate : Predicate) :
  isComparison candidate = true ->
  candidate ∈ nodes root ->
  NoDup (refs root) ->
  (removeLast root candidate
   = reject (new errors.ForbiddenCannotRemoveLastComparisonPredicate)
   <-> leaves_without (Predicate_ref candidate) root = [])
  /\ (removeLast root candidate = resolve VUndefined
      <-> leaves_without (Predicate_ref candidate) root <> [])
  /\ (length (leaves root) = 1%nat ->
      removeLast root candidate
      = reject (new errors.ForbiddenCannotRemoveLastComparisonPredicate))
  /\ (2 <= length (leaves root) ->
      removeLast root candidate = resolve VUndefined).
Proof.
  intros Hleaf Hin Hnd.
  pose proof (leaves_without_leaf candidate root Hleaf Hin Hnd) as Hlen.
  rewrite removeLast_unfold, Hleaf. simpl andb.
  destruct (leaves_without (Predicate_ref candidate) root) as [|q rest] eqn:Hleft;
    simpl in Hlen.
  - rewrite <- Hlen. simpl. repeat split; try congruence; try lia.
  - rewrite <- Hlen. simpl. repeat split; try congruence; try lia.
Qed.

Lemma RemovePredicateCannotBeTheLastComparisonPredicate_on_tree_witness :
  (isComparison date_before = true
   /\ date_before ∈ nodes two_leaves
   /\ NoDup (refs two_leaves))
  /\ leaves_without (Predicate_ref date_before) two_leaves <> []
  /\ removeLast two_leaves date_before = resolve VUndefined.
Proof.
  assert (Hleaf : isComparison date_before = true) by reflexivity.
  assert (Hin : date_before ∈ nodes two_leaves).
  { apply list_elem_of_In. simpl. auto. }
  assert (Hnd : NoDup (refs two_leaves)).
  { apply (bool_decide_unpack _). vm_compute. reflexivity. }
  assert (Hleft : leaves_without (Predicate_ref date_before) two_leaves <> []).
  { vm_compute. discriminate. }
  split; [auto|]. split; [exact Hleft|].
  exact (proj2 (proj1 (proj2
           (RemovePredicateCannotBeTheLastComparisonPredicate_on_tree
              two_leaves date_before Hleaf Hin Hnd))) Hleft).
Defined.

Lemma RemovePredicateCannotBeTheLastComparisonPredicate_ignores_candidate_witness :
  is_ dataclasses.ComparisonPredicate (VPredicate title_is) = true
  /\ is_ dataclasses.ComparisonPredicate (VPredicate date_before) = true
  /\ removeLast two_leaves title_is = removeLast two_leaves date_before.
Proof.
  split; [reflexivity|]. split; [reflexivity|].
  apply (RemovePredicateCannotBeTheLastComparisonPredicate_ignores_candidate
           rules.exports (VPredicate two_leaves)
           (VPredicate title_is) (VPredicate date_before)
           dataclasses.CompoundPredicate dataclasses.ComparisonPredicate);
    reflexivity.
Defined.

(** ** RemovePredicateMustDifferFromRootPredicate *)

Lemma strict_equals_refl (v : value) : strict_equals v v = true.
Proof.
  unfold strict_equals. destruct v; simpl;
    auto using Pos.eqb_refl, Z.eqb_refl, String.eqb_refl.
  destruct b; reflexivity.
Qed.

(** [===] is reference identity. *)
Lemma strict_equals_same_reference (a b : value) :
  strict_equals a b = true <-> same_reference a b.
Proof.
  unfold strict_equals, same_reference.
  destruct (ref_of a) as [ra|] eqn:Ha, (ref_of b) as [rb|] eqn:Hb.
  - apply Pos.eqb_eq.
  - split; [discriminate | contradiction].
  - split; [discriminate | contradiction].
  - destruct a; try discriminate Ha; destruct b; try discriminate Hb;
      split; intros H; try reflexivity; try discriminate H; try congruence.
    + f_equal. apply Bool.eqb_prop, H.
    + injection H as ->. apply Bool.eqb_reflx.
    + f_equal. apply Z.eqb_eq, H.
    + injection H as ->. apply Z.eqb_refl.
    + f_equal. apply String.eqb_eq, H.
    + injection H as ->. apply String.eqb_refl.
Qed.

(** Within one heap, two values that are [===] are the same value. *)
Lemma strict_equals_one_heap (a b : value) :
  one_heap a b -> strict_equals a b = true -> a = b.
Proof.
  intros Hheap Heq. apply strict_equals_same_reference in Heq.
  unfold same_reference in Heq.
  destruct (ref_of a) as [ra|] eqn:Ha, (ref_of b) as [rb|] eqn:Hb;
    try contradiction.
  - subst rb. exact (Hheap ra Ha Hb).
  - exact Heq.
Qed.

(** C3. RemovePredicateMustDifferFromRootPredicate(root, root) is always
    rejected with ForbiddenCannotRemoveRootCompoundPredicate; a candidate
    whose structure differs from the root's passes and is yielded
    unchanged; whatever the rules, the invariant is rejected exactly when
    predicateToRemoveIsRootPredicate holds and yields the candidate
    otherwise; and that rule is reference identity of the two. *)
Theorem RemovePredicateMustDifferFromRootPredicate_spec :
  (forall root,
      invariants.RemovePredicateMustDifferFromRootPredicate rules.exports root root
      = reject (new errors.ForbiddenCannotRemoveRootCompoundPredicate))
  /\ (forall root candidate,
      one_heap root candidate ->
      structure candidate <> structure root ->
      invariants.RemovePredicateMustDifferFromRootPredicate rules.exports root candidate
      = resolve candidate)
  /\ (forall R root candidate,
      invariants.RemovePredicateMustDifferFromRootPredicate R root candidate
      = if predicateToRemoveIsRootPredicate R root candidate
        then reject (new errors.ForbiddenCannotRemoveRootCompoundPredicate)
        else resolve candidate)
  /\ (forall root candidate,
      predicateToRemoveIsRootPredicate rules.exports root candidate = true
      <-> same_reference root candidate).
Proof.
  split; [|split; [|split]].
  - intros root.
    unfold invariants.RemovePredicateMustDifferFromRootPredicate. simpl.
    unfold rules.predicateToRemoveIsRootPredicate.
    rewrite strict_equals_refl. reflexivity.
  - intros root candidate Hheap Hdiff.
    unfold invariants.RemovePredicateMustDifferFromRootPredicate. simpl.
    unfold rules.predicateToRemoveIsRootPredicate.
    destruct (strict_equals root candidate) eqn:Heq; [|reflexivity].
    exfalso. apply Hdiff.
    rewrite (strict_equals_one_heap root candidate Hheap Heq). reflexivity.
  - intros R root candidate. reflexivity.
  - intros root candidate. simpl.
    apply strict_equals_same_reference.
Qed.

Lemma RemovePredicateMustDifferFromRootPredicate_spec_witness :
  one_heap (VPredicate two_leaves) (VPredicate title_is)
  /\ structure (VPredicate title_is) <> structure (VPredicate two_leaves)
  /\ invariants.RemovePredicateMustDifferFromRootPredicate rules.exports
       (VPredicate two_leaves) (VPredicate title_is)
     = resolve (VPredicate title_is).
Proof.
  assert (Hheap : one_heap (VPredicate two_leaves) (VPredicate title_is)).
  { intros r Ha Hb. simpl in Ha, Hb. congruence. }
  assert (Hdiff : structure (VPredicate title_is) <> structure (VPredicate two_leaves)).
  { simpl. discriminate. }
  split; [exact Hheap|]. split; [exact Hdiff|].
  exact (proj1 (proj2 RemovePredicateMustDifferFromRootPredicate_spec)
           (VPredicate two_leaves) (VPredicate title_is) Hheap Hdiff).
Defined.

(** ** The invariants on Options *)

Lemma string_app_assoc (a b c : string) : (a ++ b) ++ c = a ++ (b ++ c).
Proof.
  induction a as [|x a IH]; [reflexivity|].
  change (String x ((a ++ b) ++ c) = String x (a ++ (b ++ c))).
  f_equal. exact IH.
Qed.

Lemma string_app_empty (a : string) : a ++ EmptyString = a.
Proof.
  induction a as [|x a IH]; [reflexivity|].
  change (String x (a ++ EmptyString) = String x a).
  f_equal. exact IH.
Qed.

Lemma strip_prefix_app (p s : string) : strip_prefix p (p ++ s) = Some s.
Proof.
  induction p as [|c p IH]; simpl; [reflexivity|].
  rewrite Ascii.eqb_refl. exact IH.
Qed.

(** One escaped character is read back as that character. *)
Lemma JSON_unescape_escape (c : ascii) (tail : string) :
  JSON_unescape (JSON_escape c ++ tail) = cons_fst c (JSON_unescape tail).
Proof.
  destruct c as [[] [] [] [] [] [] [] []]; reflexivity.
Qed.

Lemma JSON_unescape_escape_all (s rest : string) :
  JSON_unescape (JSON_escape_all s ++ String quote rest) = Some (s, rest).
Proof.
  induction s as [|c s IH].
  - reflexivity.
  - change (JSON_escape_all (String c s)) with (JSON_escape c ++ JSON_escape_all s).
    rewrite string_app_assoc, JSON_unescape_escape, IH. reflexivity.
Qed.

(** [JSON.parse] undoes [JSON.stringify] on a string, whatever follows
    the literal. *)
Lemma JSON_parse_stringify (s rest : string) :
  JSON_parse_string (JSON_stringify s ++ rest) = Some (s, rest).
Proof.
  unfold JSON_stringify. simpl.
  rewrite string_app_assoc. simpl.
  apply JSON_unescape_escape_all.
Qed.

(** The message of TargetMustReferToADefinedType holds both identifiers
    of the target: they are read back from it. *)
Lemma ids_of_message_target (target : Target) :
  ids_of_message
    ("target " ++ JSON_stringify (target_id target)
     ++ " does not refer to a defined type, target.type_id="
     ++ JSON_stringify (type_id target))
  = Some (target_id target, type_id target).
Proof.
  unfold ids_of_message.
  rewrite strip_prefix_app, JSON_parse_stringify, strip_prefix_app.
  rewrite <- (string_app_empty (JSON_stringify (type_id target))).
  rewrite JSON_parse_stringify. reflexivity.
Qed.

(** C5. For an absent type Option and any target,
    TargetMustReferToADefinedType is rejected with the kind
    TargetMustReferToADefinedType and a message in which the target's
    target_id and type_id stand as JSON strings, and from which both are
    read back; for a present type Option it passes and yields the type
    the Option holds. *)
Theorem TargetMustReferToADefinedType_spec :
  (forall r target, exists message,
      invariants.TargetMustReferToADefinedType (absent r) target
      = reject (mkError errors.TargetMustReferToADefinedType (Some message))
      /\ embeds (JSON_stringify (target_id target)) message
      /\ embeds (JSON_stringify (type_id target)) message
      /\ ids_of_message message = Some (target_id target, type_id target))
  /\ (forall r type target,
      invariants.TargetMustReferToADefinedType (present r type) target = resolve type).
Proof.
  split.
  - intros r target. eexists. split; [reflexivity|].
    split; [|split].
    + exists "target ".
      exists (" does not refer to a defined type, target.type_id="
              ++ JSON_stringify (type_id target)).
      reflexivity.
    + exists ("target " ++ JSON_stringify (target_id target)
              ++ " does not refer to a defined type, target.type_id="), EmptyString.
      rewrite string_app_empty, !string_app_assoc. reflexivity.
    + apply ids_of_message_target.
  - intros r type target. reflexivity.
Qed.

(** What the three invariants yield for a present Option, and what they
    are rejected with for an absent one. *)
Lemma Option_invariants (r : ref) (v : value) (target : Target) :
  (invariants.Target_idMustReferToADefinedTarget (absent r)
   = reject (new errors.Target_idMustReferToADefinedTarget)
   /\ invariants.Operator_idMustReferToADefinedOperator (absent r)
      = reject (new errors.Operator_idMustReferToADefinedOperator)
   /\ rejection (invariants.TargetMustReferToADefinedType (absent r) target)
      = Some errors.TargetMustReferToADefinedType)
  /\ (invariants.Target_idMustReferToADefinedTarget (present r v) = resolve (VOption r (Some v))
      /\ invariants.Operator_idMustReferToADefinedOperator (present r v)
         = resolve (VOption r (Some v))
      /\ invariants.TargetMustReferToADefinedType (present r v) target = resolve v).
Proof.
  split; split; try split; reflexivity.
Qed.

(** C2, where the code departs from it.  For a present Option,
    Target_idMustReferToADefinedTarget and
    Operator_idMustReferToADefinedOperator resolve with the Option they
    were given, still wrapped, and not with the target or the operator it
    holds; TargetMustReferToADefinedType does unwrap. *)
Theorem Option_invariants_keep_the_Option :
  invariants.Target_idMustReferToADefinedTarget (present 5%positive title_target)
  = resolve (VOption 5%positive (Some title_target))
  /\ invariants.Target_idMustReferToADefinedTarget (present 5%positive title_target)
     <> resolve title_target
  /\ invariants.Operator_idMustReferToADefinedOperator (present 6%positive operator_is)
     = resolve (VOption 6%positive (Some operator_is))
  /\ invariants.Operator_idMustReferToADefinedOperator (present 6%positive operator_is)
     <> resolve operator_is
  /\ invariants.TargetMustReferToADefinedType (present 4%positive string_type)
       (mkTarget "article.title" "string")
     = resolve string_type.
Proof.
  split; [reflexivity|]. split; [discriminate|].
  split; [reflexivity|]. split; [discriminate|]. reflexivity.
Qed.

(** ** The error taxonomy and the invariants *)

(** Whatever the rules and the arguments, an invariant that is rejected
    is rejected with its own kind. *)
Lemma run_rejection (R : Rules) (c : Call) :
  rejection (run R c) = None \/ rejection (run R c) = Some (raises (invariant_of c)).
Proof.
  destruct c; simpl;
    [ unfold invariants.CompoundPredicateMustHaveAtLeastOneSubPredicate
    | unfold invariants.PredicateTypeMustBeValid
    | unfold invariants.RootPredicateMustBeACompoundPredicate
    | unfold invariants.PredicateMustBeAComparisonPredicate
    | unfold invariants.AddOnlySupportsAfter
    | unfold invariants.TargetMustReferToADefinedType
    | unfold invariants.Target_idMustReferToADefinedTarget
    | unfold invariants.Operator_idMustReferToADefinedOperator
    | unfold invariants.RemovePredicateMustDifferFromRootPredicate
    | unfold invariants.RemovePredicateCannotBeTheLastComparisonPredicate ];
    by_guard.
Qed.

Lemma raises_inj (i j : Invariant) : raises i = raises j -> i = j.
Proof.
  destruct i; destruct j; simpl; intros H; try reflexivity; discriminate H.
Qed.

(** C6. The mapping from invariants to error kinds is one-to-one: an
    invariant is never rejected with a kind other than its own, two
    different invariants have different kinds, the kinds of the ten
    invariants are the ten kinds of the taxonomy, and each invariant has
    a call that is rejected with its kind. *)
Theorem error_kinds_one_to_one :
  (forall R c,
      rejection (run R c) = None
      \/ rejection (run R c) = Some (raises (invariant_of c)))
  /\ (forall i j, raises i = raises j -> i = j)
  /\ (map raises all_invariants = errors.all
      /\ NoDup errors.all
      /\ forall k, k ∈ errors.all)
  /\ (forall i,
      invariant_of (rejected_call i) = i
      /\ rejection (run rules.exports (rejected_call i)) = Some (raises i)).
Proof.
  split; [exact run_rejection|].
  split; [exact raises_inj|].
  split.
  - split; [reflexivity|]. split.
    + apply (bool_decide_unpack _). vm_compute. reflexivity.
    + intros k. apply list_elem_of_In. destruct k; simpl; tauto.
  - intros i. destruct i; split; reflexivity.
Qed.

Lemma error_kinds_one_to_one_witness :
  raises IAddOnlySupportsAfter = raises IAddOnlySupportsAfter
  /\ rejection (run rules.exports (CallAddOnlySupportsAfter (VString "before")))
     = Some errors.AddCurrentlyOnlySupportAfterInsertion.
Proof.
  split.
  - exact (f_equal raises
             (proj1 (proj2 error_kinds_one_to_one)
                IAddOnlySupportsAfter IAddOnlySupportsAfter eq_refl)).
  - exact (proj2 (proj2 (proj2 (proj2 error_kinds_one_to_one)) IAddOnlySupportsAfter)).
Defined.

(** ** The remaining invariants *)

(** X1. AddOnlySupportsAfter passes for the insertion mode "after" and
    for nothing else; any other value is rejected with
    AddCurrentlyOnlySupportAfterInsertion. *)
Theorem AddOnlySupportsAfter_spec (how : value) :
  (invariants.AddOnlySupportsAfter how = resolve VUndefined <-> how = VString "after")
  /\ (invariants.AddOnlySupportsAfter how
      = reject (new errors.AddCurrentlyOnlySupportAfterInsertion)
      <-> how <> VString "after").
Proof.
  unfold invariants.AddOnlySupportsAfter.
  destruct (strict_equals how (VString "after")) eqn:Heq; simpl.
  - apply strict_equals_same_reference in Heq. unfold same_reference in Heq.
    simpl in Heq. destruct (ref_of how); [contradiction|]. subst how.
    split; split; intros H; try reflexivity; try discriminate H.
    exfalso. apply H. reflexivity.
  - split; split; intros H; try reflexivity; try discriminate H.
    + subst how. rewrite strict_equals_refl in Heq. discriminate Heq.
    + intros ->. rewrite strict_equals_refl in Heq. discriminate Heq.
Qed.

(** X3. PredicateTypeMustBeValid passes exactly for a type tag that is a
    string and a key of the accepted-types mapping, and is rejected with
    InvalidPredicateType otherwise. *)
Theorem PredicateTypeMustBeValid_passes_iff_key
  (type : value) (acceptedTypes : gmap string value) :
  (invariants.PredicateTypeMustBeValid type acceptedTypes = resolve VUndefined
   <-> exists tag, type = VString tag /\ tag ∈ dom acceptedTypes)
  /\ (invariants.PredicateTypeMustBeValid type acceptedTypes = resolve VUndefined
      \/ invariants.PredicateTypeMustBeValid type acceptedTypes
         = reject (new errors.InvalidPredicateType)).
Proof.
  rewrite PredicateTypeMustBeValid_spec.
  destruct type as [| | b | n | tag | r items | r props | r c | p];
    try (split; [split; [discriminate | intros [tag [H _]]; discriminate H] | auto]).
  destruct (bool_decide (tag ∈ dom acceptedTypes)) eqn:Hkey.
  - apply bool_decide_eq_true in Hkey. split; [|auto].
    split; [intros _; exists tag; auto | reflexivity].
  - apply bool_decide_eq_false in Hkey. split; [|auto].
    split; [discriminate|]. intros [tag' [Htag Hin]].
    injection Htag as ->. contradiction.
Qed.

(** ** What RemovePredicateCannotBeTheLastComparisonPredicate lets through *)

Lemma leaves_without_self (p : Predicate) : leaves_without (Predicate_ref p) p = [].
Proof. destruct p; simpl; rewrite Pos.eqb_refl; reflexivity. Qed.

(** X4. Whatever the rules and the capabilities,
    RemovePredicateCannotBeTheLastComparisonPredicate is rejected exactly
    when the capability recognises the candidate as a ComparisonPredicate
    and the rule holds.  So the removal of a group is never rejected by
    it, not even the removal of the root group, which leaves no
    ComparisonPredicate at all. *)
Theorem RemovePredicateCannotBeTheLastComparisonPredicate_lets_groups_through :
  (forall R root candidate CP CmpP,
      invariants.RemovePredicateCannotBeTheLastComparisonPredicate R root candidate CP CmpP
      = reject (new errors.ForbiddenCannotRemoveLastComparisonPredicate)
      <-> is_ CmpP candidate = true
          /\ predicateToRemoveIsTheLastComparisonPredicate R root CP CmpP = true)
  /\ (forall R root r logic predicates,
      invariants.RemovePredicateCannotBeTheLastComparisonPredicate R
        root (VPredicate (Compound r logic predicates))
        dataclasses.CompoundPredicate dataclasses.ComparisonPredicate
      = resolve VUndefined)
  /\ (forall r logic predicates,
      removeLast (Compound r logic predicates) (Compound r logic predicates)
      = resolve VUndefined
      /\ leaves_without r (Compound r logic predicates) = []).
Proof.
  split; [|split].
  - intros R root candidate CP CmpP.
    rewrite RemovePredicateCannotBeTheLastComparisonPredicate_unfold.
    destruct (is_ CmpP candidate);
      destruct (predicateToRemoveIsTheLastComparisonPredicate R root CP CmpP);
      split; try (intros H; discriminate H); try (intros [H H']; discriminate);
      auto.
  - intros R root r logic predicates.
    rewrite RemovePredicateCannotBeTheLastComparisonPredicate_unfold. reflexivity.
  - intros r logic predicates. split.
    + rewrite removeLast_unfold. reflexivity.
    + exact (leaves_without_self (Compound r logic predicates)).
Qed.

(** ** The message of TargetMustReferToADefinedType *)

(** X6. Two rejections of TargetMustReferToADefinedType are the same
    exactly when the two targets have the same target_id and the same
    type_id: the message tells the targets apart, whatever characters
    their identifiers hold. *)
Theorem TargetMustReferToADefinedType_message_tells_targets_apart
  (r r' : ref) (target target' : Target) :
  invariants.TargetMustReferToADefinedType (absent r) target
  = invariants.TargetMustReferToADefinedType (absent r') target'
  <-> target = target'.
Proof.
  split.
  - intros H.
    pose (ids := fun p => match rejection_message p with
                          | Some m => ids_of_message m
                          | None => None
                          end).
    assert (Hm : forall q t,
               ids (invariants.TargetMustReferToADefinedType (absent q) t)
               = Some (target_id t, type_id t)).
    { intros q t. exact (ids_of_message_target t). }
    apply (f_equal ids) in H. rewrite !Hm in H. injection H as Hid Hty.
    destruct target, target'. simpl in Hid, Hty. subst. reflexivity.
  - intros ->. reflexivity.
Qed.





(** ** Across the ten invariants *)

(** X8. Of the ten invariants only TargetMustReferToADefinedType rejects
    with a message: whatever the rules and the arguments, a rejection of
    any other invariant carries its kind and no message, and a rejection
    of TargetMustReferToADefinedType always carries one. *)
Theorem only_TargetMustReferToADefinedType_has_a_message (R : Rules) (c : Call) (e : Error) :
  run R c = reject e ->
  (err_message e = None <-> invariant_of c <> ITargetMustReferToADefinedType).
Proof.
  destruct c; simpl;
    [ unfold invariants.CompoundPredicateMustHaveAtLeastOneSubPredicate
    | unfold invariants.PredicateTypeMustBeValid
    | unfold invariants.RootPredicateMustBeACompoundPredicate
    | unfold invariants.PredicateMustBeAComparisonPredicate
    | unfold invariants.AddOnlySupportsAfter
    | unfold invariants.TargetMustReferToADefinedType
    | unfold invariants.Target_idMustReferToADefinedTarget
    | unfold invariants.Operator_idMustReferToADefinedOperator
    | unfold invariants.RemovePredicateMustDifferFromRootPredicate
    | unfold invariants.RemovePredicateCannotBeTheLastComparisonPredicate ];
    match goal with
    | |- context [if ?guard then _ else _] => destruct guard
    end; intros H; try discriminate H; injection H as <-; simpl;
    split; intros H; try reflexivity; try discriminate H; try discriminate.
  exfalso. apply H. reflexivity.
Qed.

Lemma only_TargetMustReferToADefinedType_has_a_message_witness :
  run rules.exports (CallAddOnlySupportsAfter (VString "before"))
  = reject (new errors.AddCurrentlyOnlySupportAfterInsertion)
  /\ err_message (new errors.AddCurrentlyOnlySupportAfterInsertion) = None.
Proof.
  assert (H : run rules.exports (CallAddOnlySupportsAfter (VString "before"))
              = reject (new errors.AddCurrentlyOnlySupportAfterInsertion))
    by reflexivity.
  split; [exact H|].
  apply (only_TargetMustReferToADefinedType_has_a_message _ _ _ H).
  simpl. discriminate.
Defined.

(** X9. An invariant that passes yields [undefined] or something it was
    given: one of its arguments, unchanged, or what an Option among them
    holds.  It never yields a value of its own making. *)
Theorem invariants_yield_what_they_are_given (R : Rules) (c : Call) (v : value) :
  run R c = resolve v -> v = VUndefined \/ v ∈ given c.
Proof.
  destruct c; simpl;
    [ unfold invariants.CompoundPredicateMustHaveAtLeastOneSubPredicate
    | unfold invariants.PredicateTypeMustBeValid
    | unfold invariants.RootPredicateMustBeACompoundPredicate
    | unfold invariants.PredicateMustBeAComparisonPredicate
    | unfold invariants.AddOnlySupportsAfter
    | unfold invariants.TargetMustReferToADefinedType
    | unfold invariants.Target_idMustReferToADefinedTarget
    | unfold invariants.Operator_idMustReferToADefinedOperator
    | unfold invariants.RemovePredicateMustDifferFromRootPredicate
    | unfold invariants.RemovePredicateCannotBeTheLastComparisonPredicate ];
    match goal with
    | |- context [if ?guard then _ else _] => destruct guard eqn:Hguard
    end; intros H; try discriminate H; injection H as <-; auto.
  - right. apply list_elem_of_In. simpl. auto.
  - right. unfold given_Option, Option_value, isNone in *.
    destruct (option_content type); [|discriminate Hguard].
    apply list_elem_of_In. simpl. auto.
  - right. apply list_elem_of_In. simpl. auto.
  - right. apply list_elem_of_In. simpl. auto.
  - right. apply list_elem_of_In. simpl. auto.
Qed.

Lemma invariants_yield_what_they_are_given_witness :
  run rules.exports
    (CallTargetMustReferToADefinedType (present 4%positive string_type)
       (mkTarget "article.title" "string"))
  = resolve string_type
  /\ (string_type = VUndefined
      \/ string_type ∈ given (CallTargetMustReferToADefinedType
                                (present 4%positive string_type)
                                (mkTarget "article.title" "string"))).
Proof.
  assert (H : run rules.exports
                (CallTargetMustReferToADefinedType (present 4%positive string_type)
                   (mkTarget "article.title" "string"))
              = resolve string_type) by reflexivity.
  split; [exact H|].
  exact (invariants_yield_what_they_are_given _ _ _ H).
Defined.

(** ** PredicateTypeMustBeValid as the accepted types change *)

(** X10. Accepting more types never invalidates a type: a tag that
    passes PredicateTypeMustBeValid with a mapping passes with every
    mapping that has at least its keys. *)
Theorem PredicateTypeMustBeValid_monotone
  (type : value) (accepted accepted' : gmap string value) :
  dom accepted ⊆ dom accepted' ->
  invariants.PredicateTypeMustBeValid type accepted = resolve VUndefined ->
  invariants.PredicateTypeMustBeValid type accepted' = resolve VUndefined.
Proof.
  intros Hsub. rewrite !PredicateTypeMustBeValid_spec.
  destruct type as [| | b | n | tag | r items | r props | r c | p]; try discriminate.
  destruct (bool_decide (tag ∈ dom accepted)) eqn:Hin; [|discriminate].
  apply bool_decide_eq_true in Hin. intros _.
  rewrite bool_decide_eq_true_2; [reflexivity | apply Hsub, Hin].
Qed.

Lemma PredicateTypeMustBeValid_monotone_witness :
  invariants.PredicateTypeMustBeValid (VString "ComparisonPredicate")
    (<[ "CompoundPredicate" := VNull ]> {[ "ComparisonPredicate" := VNull ]})
  = resolve VUndefined.
Proof.
  apply (PredicateTypeMustBeValid_monotone (VString "ComparisonPredicate")
           {[ "ComparisonPredicate" := VNull ]}).
  - rewrite dom_insert_L. set_solver.
  - rewrite PredicateTypeMustBeValid_spec, dom_singleton_L.
    rewrite bool_decide_eq_true_2; [reflexivity | set_solver].
Defined.

(** X11. With no accepted type every tag is rejected; once a tag is added
    to the mapping, with any value, it passes, and the other tags settle
    as before; once it is deleted it is rejected. *)
Theorem PredicateTypeMustBeValid_insert_delete :
  (forall type,
      invariants.PredicateTypeMustBeValid type ∅ = reject (new errors.InvalidPredicateType))
  /\ (forall tag tag' v accepted,
      invariants.PredicateTypeMustBeValid (VString tag') (<[ tag := v ]> accepted)
      = if decide (tag = tag') then resolve VUndefined
        else invariants.PredicateTypeMustBeValid (VString tag') accepted)
  /\ (forall tag tag' accepted,
      invariants.PredicateTypeMustBeValid (VString tag') (delete tag accepted)
      = if decide (tag = tag') then reject (new errors.InvalidPredicateType)
        else invariants.PredicateTypeMustBeValid (VString tag') accepted).
Proof.
  split; [|split].
  - intros type. rewrite PredicateTypeMustBeValid_spec.
    destruct type; reflexivity.
  - intros tag tag' v accepted. rewrite !PredicateTypeMustBeValid_spec, dom_insert_L.
    destruct (decide (tag = tag')) as [-> | Hne].
    + rewrite bool_decide_eq_true_2; [reflexivity|].
      apply elem_of_union_l, elem_of_singleton. reflexivity.
    + rewrite (bool_decide_ext (tag' ∈ {[tag]} ∪ dom accepted) (tag' ∈ dom accepted));
        [reflexivity|].
      rewrite elem_of_union, elem_of_singleton. split; [|auto].
      intros [Heq | Hin]; [congruence | exact Hin].
  - intros tag tag' accepted. rewrite !PredicateTypeMustBeValid_spec, dom_delete_L.
    destruct (decide (tag = tag')) as [-> | Hne].
    + rewrite bool_decide_eq_false_2; [reflexivity|].
      rewrite elem_of_difference, elem_of_singleton. tauto.
    + rewrite (bool_decide_ext (tag' ∈ dom accepted ∖ {[tag]}) (tag' ∈ dom accepted));
        [reflexivity|].
      rewrite elem_of_difference, elem_of_singleton. split; [tauto|].
      intros Hin. split; [exact Hin | congruence].
Qed.

(** ** What CompoundPredicateMustHaveAtLeastOneSubPredicate does not look at *)

(** X12. CompoundPredicateMustHaveAtLeastOneSubPredicate never looks at
    the children: two arrays that are both empty or both non-empty settle
    alike, whatever they hold, predicates or not. *)
Theorem CompoundPredicateMustHaveAtLeastOneSubPredicate_ignores_children
  (r r' : ref) (items items' : list value) :
  (items = [] <-> items' = []) ->
  invariants.CompoundPredicateMustHaveAtLeastOneSubPredicate (VArray r items)
  = invariants.CompoundPredicateMustHaveAtLeastOneSubPredicate (VArray r' items').
Proof.
  intros [Hto Hfrom].
  destruct items as [|x items], items' as [|x' items']; try reflexivity.
  - discriminate (Hto eq_refl).
  - discriminate (Hfrom eq_refl).
Qed.

Lemma CompoundPredicateMustHaveAtLeastOneSubPredicate_ignores_children_witness :
  invariants.CompoundPredicateMustHaveAtLeastOneSubPredicate
    (VArray 20%positive [VPredicate title_is])
  = invariants.CompoundPredicateMustHaveAtLeastOneSubPredicate
      (VArray 21%positive [VNull; VNumber 3]).
Proof.
  apply (CompoundPredicateMustHaveAtLeastOneSubPredicate_ignores_children
           20%positive 21%positive [VPredicate title_is] [VNull; VNumber 3]).
  split; intros H; discriminate H.
Defined.

(** ** The three invariants on Options, side by side *)

(** X13. On one Option the three invariants pass together or are
    rejected together.  When they pass, Target_idMustReferToADefinedTarget
    and Operator_idMustReferToADefinedOperator yield the very Option they
    were given, and what that Option holds is what
    TargetMustReferToADefinedType yields. *)
Theorem Option_invariants_agree (o : Option_) (target : Target) :
  (rejection (invariants.Target_idMustReferToADefinedTarget o) = None
   <-> rejection (invariants.TargetMustReferToADefinedType o target) = None)
  /\ (rejection (invariants.Operator_idMustReferToADefinedOperator o) = None
      <-> rejection (invariants.TargetMustReferToADefinedType o target) = None)
  /\ (forall v,
      invariants.TargetMustReferToADefinedType o target = resolve v ->
      exists w,
        invariants.Target_idMustReferToADefinedTarget o = resolve w
        /\ invariants.Operator_idMustReferToADefinedOperator o = resolve w
        /\ strict_equals w (Option_to_value o) = true
        /\ unwrap w = Some v).
Proof.
  unfold invariants.Target_idMustReferToADefinedTarget,
    invariants.Operator_idMustReferToADefinedOperator,
    invariants.TargetMustReferToADefinedType, isNone, Option_value.
  destruct o as [r [content|]]; simpl.
  - split; [tauto|]. split; [tauto|].
    intros v H. injection H as <-.
    exists (VOption r (Some content)). repeat split.
    unfold strict_equals. simpl. apply Pos.eqb_refl.
  - split; [split; discriminate|]. split; [split; discriminate|].
    intros v H. discriminate H.
Qed.

Lemma Option_invariants_agree_witness :
  invariants.TargetMustReferToADefinedType (present 5%positive title_target)
    (mkTarget "article.title" "string")
  = resolve title_target
  /\ exists w,
       invariants.Target_idMustReferToADefinedTarget (present 5%positive title_target)
       = resolve w
       /\ invariants.Operator_idMustReferToADefinedOperator (present 5%positive title_target)
          = resolve w
       /\ strict_equals w (Option_to_value (present 5%positive title_target)) = true
       /\ unwrap w = Some title_target.
Proof.
  split; [reflexivity|].
  exact (proj2 (proj2 (Option_invariants_agree (present 5%positive title_target)
                         (mkTarget "article.title" "string")))
           title_target eq_refl).
Defined.

(** ** No state of the module's own *)




(** The hypothesis on the collaborators is needed: with a capability that
    has state, two runs of one call in a row settle differently. *)
Example exec_flip_twice :
  let call := world.InvokeRootPredicateMustBeACompoundPredicate nat
                (VPredicate one_leaf) world.flip in
  let rules := world.pure_rules nat rules.exports in
  world.exec nat rules call 0%nat = (resolve (VPredicate one_leaf), 1%nat)
  /\ world.exec nat rules call 1%nat
     = (reject (new errors.RootPredicateMustBeACompoundPredicate), 2%nat).
Proof. split; reflexivity. Qed.


